(** * Mergington High School activities API (src/app.py)

    A shallow embedding of the FastAPI application: the in-memory
    [activities] dictionary, the session resolver [get_current_user], the
    two mutating handlers [signup_for_activity] and
    [unregister_from_activity], the [login] and [logout] handlers, and
    the routes that tie them together.

    The module-level dictionary [activities] is the only mutable state of
    the program.  Handlers are written in a small state-and-exception
    monad over it: a [raise] leaves the dictionary exactly as the
    statements executed before it left it, as a Python exception does.

    A Python [str] is represented by the bytes of its UTF-8 encoding:
    equality, emptiness and concatenation of strings are those of their
    encodings. *)

From stdpp Require Import gmap strings list fin_maps.
From Stdlib Require Import ZArith.

Local Open Scope Z_scope.

(** ** Data model *)

(** One value of the [activities] dictionary. *)
Record Activity := mkActivity {
  description : string;
  schedule : string;
  max_participants : Z;
  participants : list string
}.

(** The statement [activity["participants"] = l] on a record. *)
Definition set_participants (l : list string) (a : Activity) : Activity :=
  {| description := description a;
     schedule := schedule a;
     max_participants := max_participants a;
     participants := l |}.

(** The dictionary [activities]: activity name to record. *)
Abbreviation Registry := (gmap string Activity).

(** One value of [users["teachers"]]: the stored password hash. *)
Record Teacher := mkTeacher { password : string }.

(** The parsed content of users.json, as [load_users] returns it. *)
Record Users := mkUsers { teachers : gmap string Teacher }.

(** The JSON body a handler returns on success. *)
Record Response := mkResponse { message : string }.

(** Exceptions a handler can raise.  [HTTPException] is what the handlers
    raise themselves; [ValueError] is what [list.remove] raises on a
    missing element, [KeyError] what a subscript raises on a missing
    key, and [UnicodeEncodeError] what [response.set_cookie] raises when
    the cookie header cannot be encoded as latin-1. *)
Inductive exn :=
| HTTPException (status_code : Z) (detail : string)
| ValueError
| KeyError
| UnicodeEncodeError.

(** ** The state-and-exception monad of a handler *)

Inductive outcome (A : Type) :=
| Returned (a : A)
| Raised (e : exn).
Arguments Returned {A} a.
Arguments Raised {A} e.

Definition M (A : Type) : Type := Registry → outcome A * Registry.

Definition ret {A} (a : A) : M A := λ reg, (Returned a, reg).

Definition bind {A B} (m : M A) (k : A → M B) : M B :=
  λ reg,
    match m reg with
    | (Returned a, reg') => k a reg'
    | (Raised e, reg') => (Raised e, reg')
    end.

Definition raise {A} (e : exn) : M A := λ reg, (Raised e, reg).

(** Reading the global [activities]. *)
Definition read : M Registry := λ reg, (Returned reg, reg).

(** Overwriting the global [activities]. *)
Definition write (reg' : Registry) : M unit := λ _, (Returned tt, reg').

#[global] Instance M_ret : MRet M := @ret.
#[global] Instance M_bind : MBind M := λ A B k m, bind m k.

(** ** Python primitives used by the handlers *)

(** Truth value of an [Optional[str]]: [None] and the empty string are
    falsy, every other string is truthy. *)
Definition truthy (o : option string) : bool :=
  match o with
  | None => false
  | Some s => negb (String.eqb s "")
  end.

(** [x in l] on a list of strings. *)
Definition list_contains (x : string) (l : list string) : bool :=
  existsb (String.eqb x) l.

(** [l.remove(x)]: drops the first element equal to [x]; [None] stands
    for the [ValueError] raised when there is none. *)
Fixpoint list_remove (x : string) (l : list string) : option (list string) :=
  match l with
  | [] => None
  | y :: l' =>
      if String.eqb y x then Some l'
      else match list_remove x l' with
           | Some r => Some (y :: r)
           | None => None
           end
  end.

(** [activities[name]["participants"].append(email)], in place.  The
    handlers hold the record as a reference [activity = activities[name]]
    into the dictionary; the mutation goes through that reference, here
    through the key. *)
Definition participants_append (name email : string) : M unit :=
  reg ← read;
  match reg !! name with
  | None => raise KeyError
  | Some activity =>
      write (<[name := set_participants (participants activity ++ [email]) activity]> reg)
  end.

(** [activities[name]["participants"].remove(email)], in place. *)
Definition participants_remove (name email : string) : M unit :=
  reg ← read;
  match reg !! name with
  | None => raise KeyError
  | Some activity =>
      match list_remove email (participants activity) with
      | None => raise ValueError
      | Some l => write (<[name := set_participants l activity]> reg)
      end
  end.

(** ** Session resolver *)

Section Session.

(** What [load_users()] returns: the content of users.json. *)
Variable users : Users.

Definition load_users : Users := users.

Definition get_current_user (session : option string) : option string :=
  if negb (truthy session) then None
  else
    match session with
    | None => None
    | Some s =>
        if bool_decide (s ∈ dom (teachers load_users)) then Some s else None
    end.

End Session.

(** ** The in-memory activity database *)

Definition activities : Registry :=
  list_to_map [
    ("Chess Club",
     mkActivity "Learn strategies and compete in chess tournaments"
       "Fridays, 3:30 PM - 5:00 PM" 12
       ["michael@mergington.edu"; "daniel@mergington.edu"]);
    ("Programming Class",
     mkActivity "Learn programming fundamentals and build software projects"
       "Tuesdays and Thursdays, 3:30 PM - 4:30 PM" 20
       ["emma@mergington.edu"; "sophia@mergington.edu"]);
    ("Gym Class",
     mkActivity "Physical education and sports activities"
       "Mondays, Wednesdays, Fridays, 2:00 PM - 3:00 PM" 30
       ["john@mergington.edu"; "olivia@mergington.edu"]);
    ("Soccer Team",
     mkActivity "Join the school soccer team and compete in matches"
       "Tuesdays and Thursdays, 4:00 PM - 5:30 PM" 22
       ["liam@mergington.edu"; "noah@mergington.edu"]);
    ("Basketball Team",
     mkActivity "Practice and play basketball with the school team"
       "Wednesdays and Fridays, 3:30 PM - 5:00 PM" 15
       ["ava@mergington.edu"; "mia@mergington.edu"]);
    ("Art Club",
     mkActivity "Explore your creativity through painting and drawing"
       "Thursdays, 3:30 PM - 5:00 PM" 15
       ["amelia@mergington.edu"; "harper@mergington.edu"]);
    ("Drama Club",
     mkActivity "Act, direct, and produce plays and performances"
       "Mondays and Wednesdays, 4:00 PM - 5:30 PM" 20
       ["ella@mergington.edu"; "scarlett@mergington.edu"]);
    ("Math Club",
     mkActivity "Solve challenging problems and participate in math competitions"
       "Tuesdays, 3:30 PM - 4:30 PM" 10
       ["james@mergington.edu"; "benjamin@mergington.edu"]);
    ("Debate Team",
     mkActivity "Develop public speaking and argumentation skills"
       "Fridays, 4:00 PM - 5:30 PM" 12
       ["charlotte@mergington.edu"; "henry@mergington.edu"])
  ].

(** ** Handlers *)

(** [GET /activities]: returns the dictionary itself. *)
Definition get_activities : M Registry := read.

(** [POST /activities/{activity_name}/signup] *)
Definition signup_for_activity
    (activity_name email : string) (current_user : option string) : M Response :=
  if negb (truthy current_user) then
    raise (HTTPException 401 "Please log in as a teacher to register students")
  else
    reg ← read;
    match reg !! activity_name with
    | None => raise (HTTPException 404 "Activity not found")
    | Some activity =>
        if list_contains email (participants activity) then
          raise (HTTPException 400 "Student is already signed up")
        else
          participants_append activity_name email ;;
          ret (mkResponse ("Signed up " +:+ email +:+ " for " +:+ activity_name))
    end.

(** [DELETE /activities/{activity_name}/unregister] *)
Definition unregister_from_activity (activity_name email : string) : M Response :=
  reg ← read;
  match reg !! activity_name with
  | None => raise (HTTPException 404 "Activity not found")
  | Some activity =>
      if negb (list_contains email (participants activity)) then
        raise (HTTPException 400 "Student is not signed up for this activity")
      else
        participants_remove activity_name email ;;
        ret (mkResponse ("Unregistered " +:+ email +:+ " from " +:+ activity_name))
  end.

(** ** Requests as the routing layer dispatches them

    A request carries the value of its [session] cookie, if any.  The
    signup route declares [Depends(get_current_user)], so the cookie is
    resolved before the handler runs; the unregister route declares no
    dependency, so the cookie never reaches the handler. *)

Definition post_signup (users : Users) (session : option string)
    (activity_name email : string) : M Response :=
  signup_for_activity activity_name email (get_current_user users session).

Definition delete_unregister (session : option string)
    (activity_name email : string) : M Response :=
  unregister_from_activity activity_name email.

(** ** The HTTP errors of the handlers *)

Definition Unauthorized : exn :=
  HTTPException 401 "Please log in as a teacher to register students".
Definition NotFound : exn :=
  HTTPException 404 "Activity not found".
Definition AlreadyRegistered : exn :=
  HTTPException 400 "Student is already signed up".
Definition NotRegistered : exn :=
  HTTPException 400 "Student is not signed up for this activity".

(** ** Participant uniqueness *)

(** No activity lists the same email twice. *)
Definition unique_participants (reg : Registry) : Prop :=
  map_Forall (λ _ a, NoDup (participants a)) reg.

(** ** Sample states *)

Definition sample_users : Users :=
  mkUsers {[ "mrodriguez" := mkTeacher "scrypt:32768:8:1$salt$hash" ]}.

(** The record stored under "Chess Club" at process start. *)
Definition chess_club : Activity :=
  mkActivity "Learn strategies and compete in chess tournaments"
    "Fridays, 3:30 PM - 5:00 PM" 12
    ["michael@mergington.edu"; "daniel@mergington.edu"].

(** A one-activity registry that is already over capacity. *)
Definition tiny_club : Activity :=
  mkActivity "A club for one" "Mondays" 1 ["a@mergington.edu"; "b@mergington.edu"].

Definition crowded : Registry := {[ "Tiny Club" := tiny_club ]}.

(** A credential table whose only username is the empty string. *)
Definition blank_users : Users := mkUsers {[ "" := mkTeacher "hash" ]}.

(** ** Login and logout *)

(** The two fields of FastAPI's [OAuth2PasswordRequestForm] that [login]
    reads. *)
Module OAuth2PasswordRequestForm.
Record t := mk { username : string; password : string }.
End OAuth2PasswordRequestForm.

(** What a handler does to the cookies of its response. *)
Inductive cookie_op :=
| set_cookie (key value : string)
| delete_cookie (key : string).

(** [JSONResponse(content)] with the cookie operations applied to it. *)
Record JSONResponse := mkJSONResponse {
  content : list (string * string);
  cookies : list cookie_op
}.

(** Whether every code point of a string is at most U+00FF.  In UTF-8
    the code points up to U+00FF are the single bytes below 0x80 and the
    two-byte sequences led by 0xC2 or 0xC3; every code point above
    U+00FF has a lead byte of 0xC4 or more. *)
Definition latin1_encodable (s : string) : bool :=
  forallb (λ c, Nat.ltb (Ascii.nat_of_ascii c) 196) (String.list_ascii_of_string s).

(** [response.set_cookie(key=key, value=value)].  The cookie module
    writes every character of the value up to U+00FF in ASCII (as itself
    or as an octal escape) and leaves the others as they are; the header
    is then encoded as latin-1, which raises on a character above
    U+00FF. *)
Definition response_set_cookie (response : JSONResponse) (key value : string)
    : M JSONResponse :=
  if latin1_encodable value then
    mret (mkJSONResponse (content response) (cookies response ++ [set_cookie key value]))
  else raise UnicodeEncodeError.

Section Login.

(** What [load_users()] returns: the content of users.json. *)
Variable users : Users.

(** werkzeug's [check_password_hash(pwhash, password)]. *)
Variable check_password_hash : string → string → bool.

Definition verify_teacher (username password_given : string) : bool :=
  match teachers (load_users users) !! username with
  | None => false
  | Some teacher => check_password_hash (password teacher) password_given
  end.

(** [POST /api/login] *)
Definition login (form_data : OAuth2PasswordRequestForm.t) : M JSONResponse :=
  if verify_teacher (OAuth2PasswordRequestForm.username form_data)
       (OAuth2PasswordRequestForm.password form_data)
  then
    response ← response_set_cookie (mkJSONResponse [("status", "success")] [])
                 "session" (OAuth2PasswordRequestForm.username form_data);
    mret response
  else raise (HTTPException 401 "Invalid credentials").

End Login.

(** [POST /api/logout] *)
Definition logout : M JSONResponse :=
  mret (mkJSONResponse [("status", "success")] [delete_cookie "session"]).

(** ** The routes of the application *)

(** One request for each decorated route, with the inputs its handler
    declares. *)
Inductive Request :=
| GET_root
| GET_activities
| POST_login (form_data : OAuth2PasswordRequestForm.t)
| POST_logout
| POST_signup (session : option string) (activity_name email : string)
| DELETE_unregister (session : option string) (activity_name email : string).

(** What a handler hands back to the framework. *)
Inductive Reply :=
| RedirectResponse (url : string)
| ActivitiesReply (listed : Registry)
| JSONReply (response : JSONResponse)
| MessageReply (response : Response).

(** [GET /] *)
Definition root : M Reply := mret (RedirectResponse "/static/index.html").

Section Routes.

Variable users : Users.
Variable check_password_hash : string → string → bool.

Definition dispatch (request : Request) : M Reply :=
  match request with
  | GET_root => root
  | GET_activities => listed ← get_activities; mret (ActivitiesReply listed)
  | POST_login form_data =>
      response ← login users check_password_hash form_data; mret (JSONReply response)
  | POST_logout => response ← logout; mret (JSONReply response)
  | POST_signup session activity_name email =>
      response ← post_signup users session activity_name email;
      mret (MessageReply response)
  | DELETE_unregister session activity_name email =>
      response ← delete_unregister session activity_name email;
      mret (MessageReply response)
  end.

(** Requests served one after another against the shared dictionary: a
    handler that raises produces an error reply, and the next request
    runs on whatever the dictionary then holds. *)
Fixpoint serve (requests : list Request) (reg : Registry)
    : list (outcome Reply) * Registry :=
  match requests with
  | [] => ([], reg)
  | request :: rest =>
      let (reply, reg1) := dispatch request reg in
      let (replies, reg2) := serve rest reg1 in
      (reply :: replies, reg2)
  end.

(** A request that carries no resolvable teacher session. *)
Definition anonymous (request : Request) : bool :=
  match request with
  | POST_signup session _ _ =>
      match get_current_user users session with
      | None => true
      | Some _ => false
      end
  | _ => true
  end.

End Routes.

(** ** What signup and unregister leave alone *)

(** The fields of a record that no handler assigns. *)
Definition catalogue_entry (a : Activity) : string * string * Z :=
  (description a, schedule a, max_participants a).

(** Same activity names, each with the same description, schedule and
    capacity. *)
Definition same_catalogue (reg reg' : Registry) : Prop :=
  ∀ name, catalogue_entry <$> reg' !! name = catalogue_entry <$> reg !! name.

(** One handler call turns [reg] into [reg']. *)
Inductive registry_step (reg : Registry) : Registry → Prop :=
| step_same : registry_step reg reg
| step_append name a email :
    reg !! name = Some a →
    email ∉ participants a →
    registry_step reg (<[name := set_participants (participants a ++ [email]) a]> reg)
| step_remove name a email l1 l2 :
    reg !! name = Some a →
    participants a = l1 ++ email :: l2 →
    email ∉ l1 →
    registry_step reg (<[name := set_participants (l1 ++ l2) a]> reg).

(** ** More sample states *)

(** A stand-in for the hash check: the stored hash is the password behind
    a fixed prefix. *)
Definition sample_check (pwhash password_given : string) : bool :=
  String.eqb pwhash ("plain$" +:+ password_given).

Definition sample_teachers : Users :=
  mkUsers {[ "mrodriguez" := mkTeacher "plain$art123";
             "mchen" := mkTeacher "plain$chess456" ]}.


(** The same usernames as [sample_teachers] with other passwords. *)
Definition rehashed_teachers : Users :=
  mkUsers {[ "mrodriguez" := mkTeacher "plain$other";
             "mchen" := mkTeacher "plain$another" ]}.

(** * Properties *)

(** ** Python primitives *)

Lemma list_contains_elem_of (x : string) (l : list string) :
  list_contains x l = true ↔ x ∈ l.
Proof.
  unfold list_contains. induction l as [|y l IH]; simpl.
  - split; [discriminate | by intros ?%elem_of_nil].
  - rewrite orb_true_iff, IH, elem_of_cons, String.eqb_eq. done.
Qed.

Lemma list_contains_false (x : string) (l : list string) :
  list_contains x l = false ↔ x ∉ l.
Proof.
  rewrite <- list_contains_elem_of. by destruct (list_contains x l).
Qed.

Lemma truthy_Some (o : option string) :
  truthy o = true ↔ ∃ s, o = Some s ∧ s ≠ "".
Proof.
  destruct o as [s|]; simpl.
  - rewrite negb_true_iff, String.eqb_neq. split.
    + intros Hs. by exists s.
    + by intros (s' & [= <-] & Hs).
  - split; [discriminate | by intros (s & [=] & _)].
Qed.

(** [l.remove(x)] splits the list at the first occurrence of [x]. *)
Lemma list_remove_split (x : string) (l : list string) :
  x ∈ l →
  ∃ l1 l2, l = l1 ++ (x :: l2) ∧ (x ∉ l1) ∧ list_remove x l = Some (l1 ++ l2).
Proof.
  induction l as [|y l IH]; [by intros ?%elem_of_nil|].
  intros Hin. simpl. destruct (String.eqb_spec y x) as [->|Hne].
  - exists [], l. split_and!; [done | apply not_elem_of_nil | done].
  - apply elem_of_cons in Hin as [->|Hin]; [done|].
    destruct (IH Hin) as (l1 & l2 & -> & Hl1 & ->).
    exists (y :: l1), l2. split_and!; [done | | done].
    rewrite elem_of_cons. by intros [<-|?].
Qed.

(** [l.remove(x)] raises exactly when [x] is not in [l]. *)
Lemma list_remove_None (x : string) (l : list string) :
  list_remove x l = None ↔ x ∉ l.
Proof.
  split.
  - intros Hnone Hin.
    destruct (list_remove_split x l Hin) as (? & ? & _ & _ & Hsome). congruence.
  - induction l as [|y l IH]; [done|].
    rewrite not_elem_of_cons. intros [Hne Hnin]. simpl.
    destruct (String.eqb_spec y x) as [->|_]; [done|]. by rewrite IH.
Qed.

(** Removing what was just appended gives the list back. *)
Lemma list_remove_snoc (x : string) (l : list string) :
  x ∉ l → list_remove x (l ++ [x]) = Some l.
Proof.
  induction l as [|y l IH]; simpl.
  - by rewrite String.eqb_refl.
  - rewrite not_elem_of_cons. intros [Hne Hnin].
    destruct (String.eqb_spec y x) as [->|_]; [done|]. by rewrite IH.
Qed.

Lemma list_remove_NoDup (x : string) (l l' : list string) :
  NoDup l → list_remove x l = Some l' → NoDup l' ∧ x ∉ l'.
Proof.
  intros Hnd Hrm.
  assert (x ∈ l) as Hin.
  { destruct (decide (x ∈ l)) as [|Hnin]; [done|].
    apply list_remove_None in Hnin. congruence. }
  destruct (list_remove_split x l Hin) as (l1 & l2 & -> & Hl1 & Hsome).
  assert (l' = l1 ++ l2) as -> by congruence.
  apply NoDup_app in Hnd as (Hnd1 & Hdisj & Hnd2).
  apply NoDup_cons in Hnd2 as [Hx2 Hnd2].
  split.
  - apply NoDup_app. split_and!; [done | | done].
    intros y Hy1 Hy2. apply (Hdisj y Hy1). by right.
  - rewrite elem_of_app. by intros [?|?].
Qed.

Lemma set_participants_id (a : Activity) :
  set_participants (participants a) a = a.
Proof. by destruct a. Qed.

Lemma participants_set_participants (l : list string) (a : Activity) :
  participants (set_participants l a) = l.
Proof. done. Qed.

(** ** Running the handlers

    One equation per path through each handler. *)

Ltac run :=
  unfold signup_for_activity, unregister_from_activity,
    participants_append, participants_remove, get_activities,
    mbind, M_bind, mret, M_ret, bind, ret, raise, read, write;
  simpl.

(** Take the branch that the equation [H] selects. *)
Ltac branch H := rewrite H; simpl.

Lemma signup_falsy name email cu (reg : Registry) :
  truthy cu = false →
  signup_for_activity name email cu reg = (Raised Unauthorized, reg).
Proof. intros H. run. by branch H. Qed.

Lemma signup_missing name email cu (reg : Registry) :
  truthy cu = true → reg !! name = None →
  signup_for_activity name email cu reg = (Raised NotFound, reg).
Proof. intros Hcu Hreg. run. branch Hcu. by branch Hreg. Qed.

Lemma signup_present name email cu (reg : Registry) a :
  truthy cu = true → reg !! name = Some a → email ∈ participants a →
  signup_for_activity name email cu reg = (Raised AlreadyRegistered, reg).
Proof.
  intros Hcu Hreg Hin%list_contains_elem_of. run.
  branch Hcu. branch Hreg. by branch Hin.
Qed.

Lemma signup_fresh name email cu (reg : Registry) a :
  truthy cu = true → reg !! name = Some a → email ∉ participants a →
  signup_for_activity name email cu reg =
    (Returned (mkResponse ("Signed up " +:+ email +:+ " for " +:+ name)),
     <[name := set_participants (participants a ++ [email]) a]> reg).
Proof.
  intros Hcu Hreg Hin%list_contains_false. run.
  branch Hcu. branch Hreg. branch Hin. by branch Hreg.
Qed.

Lemma unregister_missing name email (reg : Registry) :
  reg !! name = None →
  unregister_from_activity name email reg = (Raised NotFound, reg).
Proof. intros Hreg. run. by branch Hreg. Qed.

Lemma unregister_absent name email (reg : Registry) a :
  reg !! name = Some a → email ∉ participants a →
  unregister_from_activity name email reg = (Raised NotRegistered, reg).
Proof.
  intros Hreg Hin%list_contains_false. run. branch Hreg. by branch Hin.
Qed.

Lemma unregister_present name email (reg : Registry) a :
  reg !! name = Some a → email ∈ participants a →
  ∃ l1 l2,
    participants a = l1 ++ (email :: l2) ∧ (email ∉ l1) ∧
    unregister_from_activity name email reg =
      (Returned (mkResponse ("Unregistered " +:+ email +:+ " from " +:+ name)),
       <[name := set_participants (l1 ++ l2) a]> reg).
Proof.
  intros Hreg Hin.
  destruct (list_remove_split _ _ Hin) as (l1 & l2 & Hsplit & Hl1 & Hrm).
  exists l1, l2. split_and!; [done..|].
  apply list_contains_elem_of in Hin. run.
  branch Hreg. branch Hin. branch Hreg. by branch Hrm.
Qed.

(** Whatever [get_current_user] resolves passes the handler's
    [if not current_user] check, and is a key of the teachers table. *)
Lemma get_current_user_Some users session u :
  get_current_user users session = Some u →
  session = Some u ∧ truthy (Some u) = true ∧ u ∈ dom (teachers users).
Proof.
  unfold get_current_user, load_users.
  destruct (truthy session) eqn:Ht; simpl; [|discriminate].
  destruct session as [s|]; [|discriminate].
  case_bool_decide; [|discriminate]. by intros [= <-].
Qed.

(** ** Signup *)

(** C1: with no acting user ([current_user] is [None]), signup raises
    401 Unauthorized for every registry, every activity name and every
    email, whether or not the activity exists or the email is enrolled. *)
Theorem signup_without_user_unauthorized
    (reg : Registry) (activity_name email : string) :
  signup_for_activity activity_name email None reg =
    (Raised (HTTPException 401 "Please log in as a teacher to register students"), reg).
Proof. by apply signup_falsy. Qed.

(** The same at the routing layer: a request whose cookie resolves to no
    user is rejected with 401. *)
Lemma post_signup_unresolved users session activity_name email (reg : Registry) :
  get_current_user users session = None →
  post_signup users session activity_name email reg = (Raised Unauthorized, reg).
Proof. unfold post_signup. intros ->. by apply signup_falsy. Qed.

(** C2: for an activity name that is not a key of the registry, signup
    by a logged-in user and unregister both raise 404 NotFound. *)
Theorem unknown_activity_not_found
    (reg : Registry) (activity_name email : string) (current_user : option string) :
  truthy current_user = true →
  reg !! activity_name = None →
  signup_for_activity activity_name email current_user reg =
    (Raised (HTTPException 404 "Activity not found"), reg) ∧
  unregister_from_activity activity_name email reg =
    (Raised (HTTPException 404 "Activity not found"), reg).
Proof.
  intros Hcu Hreg. split.
  - by apply signup_missing.
  - by apply unregister_missing.
Qed.

Lemma unknown_activity_not_found_witness :
  truthy (Some "mrodriguez") = true ∧
  activities !! "Unknown Club" = None ∧
  signup_for_activity "Unknown Club" "x@mergington.edu" (Some "mrodriguez") activities =
    (Raised (HTTPException 404 "Activity not found"), activities) ∧
  unregister_from_activity "Unknown Club" "x@mergington.edu" activities =
    (Raised (HTTPException 404 "Activity not found"), activities).
Proof.
  split; [reflexivity|]. split; [vm_compute; reflexivity|].
  apply (unknown_activity_not_found activities "Unknown Club" "x@mergington.edu"
           (Some "mrodriguez")); [reflexivity | vm_compute; reflexivity].
Defined.

(** C3: signing the same fresh email up twice in a row for an existing
    activity succeeds the first time and raises 400 AlreadyRegistered
    the second time. *)
Theorem signup_twice_already_registered
    (reg : Registry) (activity_name email : string) (current_user : option string)
    (activity : Activity) :
  truthy current_user = true →
  reg !! activity_name = Some activity →
  email ∉ participants activity →
  ∃ (resp : Response) (reg1 : Registry),
    signup_for_activity activity_name email current_user reg = (Returned resp, reg1) ∧
    signup_for_activity activity_name email current_user reg1 =
      (Raised (HTTPException 400 "Student is already signed up"), reg1).
Proof.
  intros Hcu Hreg Hfresh.
  eexists _, _. split; [by eapply signup_fresh|].
  eapply signup_present; [done | apply lookup_insert_eq |].
  rewrite participants_set_participants, elem_of_app, list_elem_of_singleton.
  by right.
Qed.

Lemma signup_twice_already_registered_witness :
  truthy (Some "mrodriguez") = true ∧
  activities !! "Chess Club" = Some chess_club ∧
  ("new@mergington.edu" ∉ participants chess_club) ∧
  ∃ (resp : Response) (reg1 : Registry),
    signup_for_activity "Chess Club" "new@mergington.edu" (Some "mrodriguez") activities =
      (Returned resp, reg1) ∧
    signup_for_activity "Chess Club" "new@mergington.edu" (Some "mrodriguez") reg1 =
      (Raised (HTTPException 400 "Student is already signed up"), reg1).
Proof.
  assert (truthy (Some "mrodriguez") = true) as Hcu by reflexivity.
  assert (activities !! "Chess Club" = Some chess_club) as Hreg
    by (vm_compute; reflexivity).
  assert ("new@mergington.edu" ∉ participants chess_club) as Hfresh
    by (apply list_contains_false; vm_compute; reflexivity).
  split_and!; [done..|].
  exact (signup_twice_already_registered activities "Chess Club" "new@mergington.edu"
           (Some "mrodriguez") chess_club Hcu Hreg Hfresh).
Defined.

(** C4: for an existing activity and an email not among its
    participants, signup by a logged-in user returns the confirmation
    message and stores the old participants list with the email added at
    the end.  Nothing is assumed about [max_participants]: the statement
    covers activities that are already full or over capacity. *)
Theorem signup_appends_without_capacity_check
    (reg : Registry) (activity_name email : string) (current_user : option string)
    (activity : Activity) :
  truthy current_user = true →
  reg !! activity_name = Some activity →
  email ∉ participants activity →
  ∃ reg1 activity1,
    signup_for_activity activity_name email current_user reg =
      (Returned (mkResponse ("Signed up " +:+ email +:+ " for " +:+ activity_name)), reg1) ∧
    reg1 !! activity_name = Some activity1 ∧
    participants activity1 = participants activity ++ [email] ∧
    description activity1 = description activity ∧
    schedule activity1 = schedule activity ∧
    max_participants activity1 = max_participants activity ∧
    (∀ other, other ≠ activity_name → reg1 !! other = reg !! other).
Proof.
  intros Hcu Hreg Hfresh.
  eexists _, _. split; [by eapply signup_fresh|].
  split; [apply lookup_insert_eq|].
  split_and!; try done.
  intros other Hother. by apply lookup_insert_ne.
Qed.

(** [crowded] holds two participants against a capacity of one; the
    third signup is accepted all the same. *)
Lemma signup_appends_without_capacity_check_witness :
  truthy (Some "mrodriguez") = true ∧
  crowded !! "Tiny Club" = Some tiny_club ∧
  ("c@mergington.edu" ∉ participants tiny_club) ∧
  max_participants tiny_club < Z.of_nat (length (participants tiny_club)) ∧
  ∃ reg1 activity1,
    signup_for_activity "Tiny Club" "c@mergington.edu" (Some "mrodriguez") crowded =
      (Returned (mkResponse "Signed up c@mergington.edu for Tiny Club"), reg1) ∧
    reg1 !! "Tiny Club" = Some activity1 ∧
    participants activity1 = participants tiny_club ++ ["c@mergington.edu"] ∧
    description activity1 = description tiny_club ∧
    schedule activity1 = schedule tiny_club ∧
    max_participants activity1 = max_participants tiny_club ∧
    (∀ other, other ≠ "Tiny Club" → reg1 !! other = crowded !! other).
Proof.
  assert (truthy (Some "mrodriguez") = true) as Hcu by reflexivity.
  assert (crowded !! "Tiny Club" = Some tiny_club) as Hreg
    by (vm_compute; reflexivity).
  assert ("c@mergington.edu" ∉ participants tiny_club) as Hfresh
    by (apply list_contains_false; vm_compute; reflexivity).
  split_and!; [done | done | done | reflexivity |].
  exact (signup_appends_without_capacity_check crowded "Tiny Club" "c@mergington.edu"
           (Some "mrodriguez") tiny_club Hcu Hreg Hfresh).
Defined.

(** ** Unregister *)

(** C5: signing a fresh email up and then unregistering it both succeed
    and give back the registry that was there before the signup: the
    activity's participants are the same list in the same order, and no
    other entry has changed. *)
Theorem signup_then_unregister_restores
    (reg : Registry) (activity_name email : string) (current_user : option string)
    (activity : Activity) :
  truthy current_user = true →
  reg !! activity_name = Some activity →
  email ∉ participants activity →
  ∃ resp1 reg1 resp2 reg2,
    signup_for_activity activity_name email current_user reg = (Returned resp1, reg1) ∧
    unregister_from_activity activity_name email reg1 = (Returned resp2, reg2) ∧
    participants <$> reg2 !! activity_name = Some (participants activity) ∧
    (∀ other, other ≠ activity_name → reg2 !! other = reg !! other) ∧
    reg2 = reg.
Proof.
  intros Hcu Hreg Hfresh.
  set (activity1 := set_participants (participants activity ++ [email]) activity).
  assert (unregister_from_activity activity_name email (<[activity_name := activity1]> reg) =
          (Returned (mkResponse ("Unregistered " +:+ email +:+ " from " +:+ activity_name)),
           reg)) as Hun.
  { run. branch (lookup_insert_eq reg activity_name activity1).
    assert (list_contains email (participants activity ++ [email]) = true) as Hin.
    { apply list_contains_elem_of, elem_of_app. right. by apply list_elem_of_singleton. }
    branch Hin. branch (lookup_insert_eq reg activity_name activity1).
    branch (list_remove_snoc email (participants activity) Hfresh).
    f_equal. rewrite insert_insert_eq. apply insert_id.
    by rewrite Hreg, <- (set_participants_id activity) at 1. }
  eexists _, _, _, _. split; [by eapply signup_fresh|].
  split; [exact Hun|].
  split_and!; [by rewrite Hreg | done | done].
Qed.

Lemma signup_then_unregister_restores_witness :
  truthy (Some "mrodriguez") = true ∧
  activities !! "Chess Club" = Some chess_club ∧
  ("new@mergington.edu" ∉ participants chess_club) ∧
  ∃ resp1 reg1 resp2 reg2,
    signup_for_activity "Chess Club" "new@mergington.edu" (Some "mrodriguez") activities =
      (Returned resp1, reg1) ∧
    unregister_from_activity "Chess Club" "new@mergington.edu" reg1 = (Returned resp2, reg2) ∧
    participants <$> reg2 !! "Chess Club" = Some (participants chess_club) ∧
    (∀ other, other ≠ "Chess Club" → reg2 !! other = activities !! other) ∧
    reg2 = activities.
Proof.
  assert (truthy (Some "mrodriguez") = true) as Hcu by reflexivity.
  assert (activities !! "Chess Club" = Some chess_club) as Hreg
    by (vm_compute; reflexivity).
  assert ("new@mergington.edu" ∉ participants chess_club) as Hfresh
    by (apply list_contains_false; vm_compute; reflexivity).
  split_and!; [done..|].
  exact (signup_then_unregister_restores activities "Chess Club" "new@mergington.edu"
           (Some "mrodriguez") chess_club Hcu Hreg Hfresh).
Defined.

(** C6: for an existing activity and an enrolled email, the unregister
    request succeeds whatever its [session] cookie is, in particular
    with no cookie at all: the participants stored afterwards are the
    old ones with the first occurrence of the email dropped and the rest
    in their order, the email is gone from them when the list had no
    duplicates, and nothing else in the registry changes. *)
Theorem unregister_without_authorization
    (reg : Registry) (session : option string) (activity_name email : string)
    (activity : Activity) :
  reg !! activity_name = Some activity →
  email ∈ participants activity →
  ∃ l1 l2 reg1 activity1,
    participants activity = l1 ++ (email :: l2) ∧
    (email ∉ l1) ∧
    delete_unregister session activity_name email reg =
      (Returned (mkResponse ("Unregistered " +:+ email +:+ " from " +:+ activity_name)),
       reg1) ∧
    reg1 !! activity_name = Some activity1 ∧
    participants activity1 = l1 ++ l2 ∧
    participants <$> reg1 !! activity_name = Some (l1 ++ l2) ∧
    description activity1 = description activity ∧
    schedule activity1 = schedule activity ∧
    max_participants activity1 = max_participants activity ∧
    (∀ other, other ≠ activity_name → reg1 !! other = reg !! other) ∧
    (NoDup (participants activity) → email ∉ participants activity1).
Proof.
  intros Hreg Hin. unfold delete_unregister.
  destruct (unregister_present _ _ _ _ Hreg Hin) as (l1 & l2 & Hsplit & Hl1 & Hrun).
  exists l1, l2. eexists _, _. split_and!; [done | done | exact Hrun | ..].
  - apply lookup_insert_eq.
  - done.
  - by rewrite lookup_insert_eq.
  - done.
  - done.
  - done.
  - intros other Hother. by apply lookup_insert_ne.
  - simpl. rewrite Hsplit. intros Hnd.
    apply NoDup_app in Hnd as (_ & _ & [Hl2 _]%NoDup_cons).
    rewrite elem_of_app. by intros [?|?].
Qed.

Lemma unregister_without_authorization_witness :
  activities !! "Chess Club" = Some chess_club ∧
  "michael@mergington.edu" ∈ participants chess_club ∧
  ∃ l1 l2 reg1 activity1,
    participants chess_club = l1 ++ ("michael@mergington.edu" :: l2) ∧
    ("michael@mergington.edu" ∉ l1) ∧
    delete_unregister None "Chess Club" "michael@mergington.edu" activities =
      (Returned (mkResponse "Unregistered michael@mergington.edu from Chess Club"),
       reg1) ∧
    reg1 !! "Chess Club" = Some activity1 ∧
    participants activity1 = l1 ++ l2 ∧
    participants <$> reg1 !! "Chess Club" = Some (l1 ++ l2) ∧
    description activity1 = description chess_club ∧
    schedule activity1 = schedule chess_club ∧
    max_participants activity1 = max_participants chess_club ∧
    (∀ other, other ≠ "Chess Club" → reg1 !! other = activities !! other) ∧
    (NoDup (participants chess_club) → "michael@mergington.edu" ∉ participants activity1).
Proof.
  assert (activities !! "Chess Club" = Some chess_club) as Hreg
    by (vm_compute; reflexivity).
  assert ("michael@mergington.edu" ∈ participants chess_club) as Hin
    by (apply list_contains_elem_of; vm_compute; reflexivity).
  split_and!; [done..|].
  exact (unregister_without_authorization activities None "Chess Club"
           "michael@mergington.edu" chess_club Hreg Hin).
Defined.

(** ** Session resolver *)

(** C7, as stated, fails for an empty cookie value: the empty string is
    a key of the teachers table of [blank_users], yet the resolver
    answers [None] instead of the cookie value, because [if not session]
    treats the empty string like a missing cookie. *)
Lemma get_current_user_empty_cookie :
  "" ∈ dom (teachers blank_users) ∧
  get_current_user blank_users (Some "") = None.
Proof.
  split; [|reflexivity].
  apply elem_of_dom. exists (mkTeacher "hash"). vm_compute; reflexivity.
Qed.

(** C7, amended: the resolver answers [None] when there is no cookie or
    the cookie value is the empty string, answers the cookie value
    itself when that value is non-empty and a key of the teachers table,
    and answers [None] for every other cookie value. *)
Theorem get_current_user_resolves (users : Users) (session : option string) :
  (session = None ∨ session = Some "" → get_current_user users session = None) ∧
  (∀ s, session = Some s → s ≠ "" → s ∈ dom (teachers users) →
        get_current_user users session = Some s) ∧
  (∀ s, session = Some s → s ∉ dom (teachers users) →
        get_current_user users session = None).
Proof.
  unfold get_current_user, load_users. split_and!.
  - by intros [-> | ->].
  - intros s -> Hs Hin. simpl.
    apply String.eqb_neq in Hs. rewrite Hs. simpl.
    by rewrite bool_decide_eq_true_2.
  - intros s -> Hnin. simpl.
    destruct (String.eqb s ""); simpl; [done|].
    by rewrite bool_decide_eq_false_2.
Qed.

Lemma get_current_user_resolves_witness :
  "mrodriguez" ≠ "" ∧
  "mrodriguez" ∈ dom (teachers sample_users) ∧
  get_current_user sample_users (Some "mrodriguez") = Some "mrodriguez".
Proof.
  assert ("mrodriguez" ≠ "") as Hne by discriminate.
  assert ("mrodriguez" ∈ dom (teachers sample_users)) as Hin.
  { apply elem_of_dom. exists (mkTeacher "scrypt:32768:8:1$salt$hash").
    vm_compute; reflexivity. }
  split_and!; [done..|].
  exact (proj1 (proj2 (get_current_user_resolves sample_users (Some "mrodriguez")))
           "mrodriguez" eq_refl Hne Hin).
Defined.

(** ** Initial state *)

(** C8: the registry starts with exactly nine entries, and listing the
    activities of the initial state returns the registry itself, where
    "Chess Club" has the participants michael, daniel in that order. *)
Theorem initial_registry_listing :
  size activities = 9%nat ∧
  ∃ (listed : Registry) (activity : Activity),
    get_activities activities = (Returned listed, activities) ∧
    listed !! "Chess Club" = Some activity ∧
    participants activity = ["michael@mergington.edu"; "daniel@mergington.edu"].
Proof.
  split; [vm_compute; reflexivity|].
  exists activities, chess_club. split_and!.
  - reflexivity.
  - vm_compute; reflexivity.
  - reflexivity.
Qed.

(** ** Every path of the two mutating handlers *)

Lemma signup_cases name email cu (reg : Registry) :
  signup_for_activity name email cu reg = (Raised Unauthorized, reg) ∨
  signup_for_activity name email cu reg = (Raised NotFound, reg) ∨
  signup_for_activity name email cu reg = (Raised AlreadyRegistered, reg) ∨
  ∃ a, reg !! name = Some a ∧ (email ∉ participants a) ∧
       signup_for_activity name email cu reg =
         (Returned (mkResponse ("Signed up " +:+ email +:+ " for " +:+ name)),
          <[name := set_participants (participants a ++ [email]) a]> reg).
Proof.
  destruct (truthy cu) eqn:Hcu; [|left; by apply signup_falsy].
  destruct (reg !! name) as [a|] eqn:Hreg; [|right; left; by apply signup_missing].
  destruct (decide (email ∈ participants a)) as [Hin|Hnin].
  - right; right; left. by eapply signup_present.
  - right; right; right. exists a. split_and!; [done..|]. by apply signup_fresh.
Qed.

Lemma unregister_cases name email (reg : Registry) :
  unregister_from_activity name email reg = (Raised NotFound, reg) ∨
  unregister_from_activity name email reg = (Raised NotRegistered, reg) ∨
  ∃ a l1 l2, reg !! name = Some a ∧
       participants a = l1 ++ (email :: l2) ∧ (email ∉ l1) ∧
       unregister_from_activity name email reg =
         (Returned (mkResponse ("Unregistered " +:+ email +:+ " from " +:+ name)),
          <[name := set_participants (l1 ++ l2) a]> reg).
Proof.
  destruct (reg !! name) as [a|] eqn:Hreg; [|left; by apply unregister_missing].
  destruct (decide (email ∈ participants a)) as [Hin|Hnin].
  - right; right.
    destruct (unregister_present _ _ _ _ Hreg Hin) as (l1 & l2 & ? & ? & ?).
    by exists a, l1, l2.
  - right; left. by eapply unregister_absent.
Qed.

(** ** Participant uniqueness *)

Lemma unique_participants_insert (reg : Registry) name a :
  unique_participants reg → NoDup (participants a) →
  unique_participants (<[name := a]> reg).
Proof. intros Hreg Ha. by apply map_Forall_insert_2. Qed.

(** C9: no participants list of the initial registry has a duplicate,
    and a signup or an unregister call, whether it returns or raises,
    turns a registry without duplicates into one without duplicates. *)
Theorem participants_stay_unique :
  unique_participants activities ∧
  (∀ (reg : Registry) activity_name email current_user,
     unique_participants reg →
     unique_participants (snd (signup_for_activity activity_name email current_user reg))) ∧
  (∀ (reg : Registry) activity_name email,
     unique_participants reg →
     unique_participants (snd (unregister_from_activity activity_name email reg))).
Proof.
  split_and!.
  - unfold unique_participants.
    apply (bool_decide_unpack _). vm_compute. exact I.
  - intros reg name email cu Hinv.
    destruct (signup_cases name email cu reg)
      as [-> | [-> | [-> | (a & Hreg & Hfresh & ->)]]]; try done.
    simpl. apply unique_participants_insert; [done|]. simpl.
    apply NoDup_app. split_and!.
    + by apply (Hinv name a).
    + intros x Hx ->%list_elem_of_singleton. done.
    + apply NoDup_singleton.
  - intros reg name email Hinv.
    destruct (unregister_cases name email reg)
      as [-> | [-> | (a & l1 & l2 & Hreg & Hsplit & Hl1 & ->)]]; try done.
    simpl. apply unique_participants_insert; [done|]. simpl.
    pose proof (Hinv name a Hreg) as Hnd. simpl in Hnd. rewrite Hsplit in Hnd.
    apply NoDup_app in Hnd as (Hnd1 & Hdisj & [_ Hnd2]%NoDup_cons).
    apply NoDup_app. split_and!; [done | | done].
    intros x Hx1 Hx2. apply (Hdisj x Hx1). by right.
Qed.

Lemma participants_stay_unique_witness :
  unique_participants activities ∧
  unique_participants
    (snd (signup_for_activity "Chess Club" "new@mergington.edu" (Some "mrodriguez")
            activities)) ∧
  unique_participants
    (snd (unregister_from_activity "Chess Club" "michael@mergington.edu" activities)).
Proof.
  pose proof (proj1 participants_stay_unique) as Hinit.
  split_and!.
  - exact Hinit.
  - exact (proj1 (proj2 participants_stay_unique) activities "Chess Club"
             "new@mergington.edu" (Some "mrodriguez") Hinit).
  - exact (proj2 (proj2 participants_stay_unique) activities "Chess Club"
             "michael@mergington.edu" Hinit).
Defined.

(** ** Failure atomicity *)

(** C10: when signup or unregister raises, the registry it leaves is the
    registry it was given, and what it raised is one of the handler's
    own HTTP errors: 401, 404 or 400 "already signed up" for signup, 404
    or 400 "not signed up" for unregister. *)
Theorem failure_leaves_registry_unchanged
    (reg reg' : Registry) (activity_name email : string)
    (current_user : option string) (e : exn) :
  (signup_for_activity activity_name email current_user reg = (Raised e, reg') →
   reg' = reg ∧
   (e = HTTPException 401 "Please log in as a teacher to register students" ∨
    e = HTTPException 404 "Activity not found" ∨
    e = HTTPException 400 "Student is already signed up")) ∧
  (unregister_from_activity activity_name email reg = (Raised e, reg') →
   reg' = reg ∧
   (e = HTTPException 404 "Activity not found" ∨
    e = HTTPException 400 "Student is not signed up for this activity")).
Proof.
  split.
  - destruct (signup_cases activity_name email current_user reg)
      as [-> | [-> | [-> | (a & _ & _ & ->)]]]; intros [= <- <-]; auto.
  - destruct (unregister_cases activity_name email reg)
      as [-> | [-> | (a & l1 & l2 & _ & _ & _ & ->)]]; intros [= <- <-]; auto.
Qed.

Lemma failure_leaves_registry_unchanged_witness :
  signup_for_activity "Chess Club" "michael@mergington.edu" (Some "mrodriguez") activities =
    (Raised (HTTPException 400 "Student is already signed up"), activities) ∧
  unregister_from_activity "Chess Club" "new@mergington.edu" activities =
    (Raised (HTTPException 400 "Student is not signed up for this activity"), activities) ∧
  activities = activities.
Proof.
  assert (signup_for_activity "Chess Club" "michael@mergington.edu" (Some "mrodriguez")
            activities =
          (Raised (HTTPException 400 "Student is already signed up"), activities)) as Hs.
  { apply (signup_present _ _ _ _ chess_club); [reflexivity | vm_compute; reflexivity |].
    apply list_contains_elem_of. vm_compute; reflexivity. }
  assert (unregister_from_activity "Chess Club" "new@mergington.edu" activities =
          (Raised (HTTPException 400 "Student is not signed up for this activity"),
           activities)) as Hu.
  { apply (unregister_absent _ _ _ chess_club); [vm_compute; reflexivity |].
    apply list_contains_false. vm_compute; reflexivity. }
  split_and!; [done..|].
  exact (proj1 (proj1 (failure_leaves_registry_unchanged activities activities
                         "Chess Club" "michael@mergington.edu" (Some "mrodriguez") _) Hs)).
Defined.

(** * Further properties of the handlers *)

(** ** When the mutating handlers return *)

(** X1: signup returns a response exactly when the acting user is truthy,
    the activity exists and the email is not yet among its participants;
    in every other case it raises. *)
Theorem signup_returns_iff
    (reg : Registry) (activity_name email : string) (current_user : option string) :
  (∃ resp reg', signup_for_activity activity_name email current_user reg =
                  (Returned resp, reg')) ↔
  truthy current_user = true ∧
  ∃ activity, reg !! activity_name = Some activity ∧ email ∉ participants activity.
Proof.
  split.
  - intros (resp & reg' & Hrun).
    destruct (signup_cases activity_name email current_user reg)
      as [H | [H | [H | (a & Hreg & Hfresh & H)]]];
      rewrite H in Hrun; try discriminate.
    split; [|by exists a].
    destruct (truthy current_user) eqn:Hcu; [done|].
    rewrite (signup_falsy _ _ _ _ Hcu) in H. discriminate.
  - intros (Hcu & a & Hreg & Hfresh).
    eexists _, _. by eapply signup_fresh.
Qed.

Lemma signup_returns_iff_witness :
  (∃ resp reg', signup_for_activity "Chess Club" "new@mergington.edu" (Some "mrodriguez")
                  activities = (Returned resp, reg')) ∧
  ¬ (∃ resp reg', signup_for_activity "Chess Club" "michael@mergington.edu"
                    (Some "mrodriguez") activities = (Returned resp, reg')).
Proof.
  split.
  - apply (proj2 (signup_returns_iff activities "Chess Club" "new@mergington.edu"
                    (Some "mrodriguez"))).
    split; [reflexivity|]. exists chess_club.
    split; [vm_compute; reflexivity|].
    apply list_contains_false. vm_compute; reflexivity.
  - intros Hret.
    apply (proj1 (signup_returns_iff activities "Chess Club" "michael@mergington.edu"
                    (Some "mrodriguez"))) in Hret as (_ & a & Hreg & Hfresh).
    assert (activities !! "Chess Club" = Some chess_club) as Hchess
      by (vm_compute; reflexivity).
    rewrite Hchess in Hreg. injection Hreg as <-.
    apply Hfresh, list_contains_elem_of. vm_compute; reflexivity.
Defined.

(** X2: unregister returns a response exactly when the activity exists and
    the email is among its participants. *)
Theorem unregister_returns_iff (reg : Registry) (activity_name email : string) :
  (∃ resp reg', unregister_from_activity activity_name email reg = (Returned resp, reg')) ↔
  ∃ activity, reg !! activity_name = Some activity ∧ email ∈ participants activity.
Proof.
  split.
  - intros (resp & reg' & Hrun).
    destruct (unregister_cases activity_name email reg)
      as [H | [H | (a & l1 & l2 & Hreg & Hsplit & _ & H)]];
      rewrite H in Hrun; try discriminate.
    exists a. split; [done|]. rewrite Hsplit, elem_of_app, elem_of_cons. auto.
  - intros (a & Hreg & Hin).
    destruct (unregister_present _ _ _ _ Hreg Hin) as (l1 & l2 & _ & _ & Hrun).
    by eexists _, _.
Qed.

Lemma unregister_returns_iff_witness :
  (∃ resp reg', unregister_from_activity "Chess Club" "daniel@mergington.edu" activities =
                  (Returned resp, reg')) ∧
  ¬ (∃ resp reg', unregister_from_activity "Chess Club" "new@mergington.edu" activities =
                    (Returned resp, reg')).
Proof.
  split.
  - apply (proj2 (unregister_returns_iff activities "Chess Club" "daniel@mergington.edu")).
    exists chess_club. split; [vm_compute; reflexivity|].
    apply list_contains_elem_of. vm_compute; reflexivity.
  - intros Hret.
    apply (proj1 (unregister_returns_iff activities "Chess Club" "new@mergington.edu"))
      in Hret as (a & Hreg & Hin).
    assert (activities !! "Chess Club" = Some chess_club) as Hchess
      by (vm_compute; reflexivity).
    rewrite Hchess in Hreg. injection Hreg as <-.
    apply list_contains_elem_of in Hin. vm_compute in Hin. discriminate.
Defined.

(** ** Unregister composed with itself and with signup *)

(** X3: unregistering an email twice in a row from a duplicate-free list
    succeeds the first time and raises 400 "not signed up" the second
    time. *)
Theorem unregister_twice_not_registered
    (reg : Registry) (activity_name email : string) (activity : Activity) :
  reg !! activity_name = Some activity →
  email ∈ participants activity →
  NoDup (participants activity) →
  ∃ (resp : Response) (reg1 : Registry),
    unregister_from_activity activity_name email reg = (Returned resp, reg1) ∧
    unregister_from_activity activity_name email reg1 =
      (Raised (HTTPException 400 "Student is not signed up for this activity"), reg1).
Proof.
  intros Hreg Hin Hnd.
  destruct (unregister_present _ _ _ _ Hreg Hin) as (l1 & l2 & Hsplit & Hl1 & Hrun).
  eexists _, _. split; [exact Hrun|].
  eapply unregister_absent; [apply lookup_insert_eq|]. simpl.
  rewrite Hsplit in Hnd.
  apply NoDup_app in Hnd as (_ & _ & [Hl2 _]%NoDup_cons).
  rewrite elem_of_app. by intros [?|?].
Qed.

Lemma unregister_twice_not_registered_witness :
  activities !! "Chess Club" = Some chess_club ∧
  "michael@mergington.edu" ∈ participants chess_club ∧
  NoDup (participants chess_club) ∧
  ∃ (resp : Response) (reg1 : Registry),
    unregister_from_activity "Chess Club" "michael@mergington.edu" activities =
      (Returned resp, reg1) ∧
    unregister_from_activity "Chess Club" "michael@mergington.edu" reg1 =
      (Raised (HTTPException 400 "Student is not signed up for this activity"), reg1).
Proof.
  assert (activities !! "Chess Club" = Some chess_club) as Hreg
    by (vm_compute; reflexivity).
  assert ("michael@mergington.edu" ∈ participants chess_club) as Hin
    by (apply list_contains_elem_of; vm_compute; reflexivity).
  assert (NoDup (participants chess_club)) as Hnd
    by (apply (bool_decide_unpack _); vm_compute; exact I).
  split_and!; [done..|].
  exact (unregister_twice_not_registered activities "Chess Club" "michael@mergington.edu"
           chess_club Hreg Hin Hnd).
Defined.

(** X4: unregistering an enrolled email and signing it up again both
    succeed, but the email comes back at the end of the list: the list is
    the one from before only when the email was already last. *)
Theorem unregister_then_signup_moves_to_end
    (reg : Registry) (activity_name email : string) (current_user : option string)
    (activity : Activity) (l1 l2 : list string) :
  truthy current_user = true →
  reg !! activity_name = Some activity →
  participants activity = l1 ++ email :: l2 →
  email ∉ l1 →
  email ∉ l2 →
  ∃ resp1 reg1 resp2 reg2 activity2,
    unregister_from_activity activity_name email reg = (Returned resp1, reg1) ∧
    signup_for_activity activity_name email current_user reg1 = (Returned resp2, reg2) ∧
    reg2 !! activity_name = Some activity2 ∧
    participants activity2 = l1 ++ l2 ++ [email] ∧
    (participants activity2 = participants activity ↔ l2 = []).
Proof.
  intros Hcu Hreg Hsplit Hl1 Hl2.
  assert (email ∈ participants activity) as Hin.
  { rewrite Hsplit, elem_of_app, elem_of_cons. auto. }
  destruct (unregister_present _ _ _ _ Hreg Hin) as (k1 & k2 & Hsplit' & Hk1 & Hrun).
  assert (list_remove email (participants activity) = Some (l1 ++ l2)) as Hrm.
  { rewrite Hsplit. clear -Hl1. induction l1 as [|y l1 IH]; simpl.
    - by rewrite String.eqb_refl.
    - apply not_elem_of_cons in Hl1 as [Hne Hl1].
      destruct (String.eqb_spec y email) as [->|_]; [done|]. by rewrite IH. }
  assert (k1 ++ k2 = l1 ++ l2) as Hk.
  { destruct (list_remove_split _ _ Hin) as (m1 & m2 & Hm & Hm1 & Hrm').
    revert Hrun. run. branch Hreg.
    apply list_contains_elem_of in Hin. branch Hin. branch Hreg. branch Hrm.
    intros [= Heq].
    apply (f_equal (λ m : Registry, m !! activity_name)) in Heq.
    rewrite !lookup_insert_eq in Heq. by injection Heq as <-. }
  rewrite Hk in Hrun.
  set (activity1 := set_participants (l1 ++ l2) activity) in *.
  assert (email ∉ participants activity1) as Hfresh.
  { simpl. rewrite elem_of_app. by intros [?|?]. }
  eexists _, _, _, _, _. split; [exact Hrun|].
  split; [eapply signup_fresh; [done | apply lookup_insert_eq | done]|].
  split; [apply lookup_insert_eq|]. simpl.
  split; [by rewrite <- app_assoc|].
  rewrite Hsplit, <- app_assoc. split.
  - intros Heq%app_inv_head. destruct l2 as [|y l2]; [done|].
    injection Heq as -> _. exfalso. apply Hl2. by left.
  - by intros ->.
Qed.

Lemma unregister_then_signup_moves_to_end_witness :
  truthy (Some "mrodriguez") = true ∧
  activities !! "Chess Club" = Some chess_club ∧
  participants chess_club = [] ++ "michael@mergington.edu" :: ["daniel@mergington.edu"] ∧
  ∃ resp1 reg1 resp2 reg2 activity2,
    unregister_from_activity "Chess Club" "michael@mergington.edu" activities =
      (Returned resp1, reg1) ∧
    signup_for_activity "Chess Club" "michael@mergington.edu" (Some "mrodriguez") reg1 =
      (Returned resp2, reg2) ∧
    reg2 !! "Chess Club" = Some activity2 ∧
    participants activity2 =
      [] ++ ["daniel@mergington.edu"] ++ ["michael@mergington.edu"] ∧
    (participants activity2 = participants chess_club ↔ ["daniel@mergington.edu"] = []).
Proof.
  assert (truthy (Some "mrodriguez") = true) as Hcu by reflexivity.
  assert (activities !! "Chess Club" = Some chess_club) as Hreg
    by (vm_compute; reflexivity).
  assert ("michael@mergington.edu" ∉ ([] : list string)) as Hl1
    by apply not_elem_of_nil.
  assert ("michael@mergington.edu" ∉ ["daniel@mergington.edu"]) as Hl2
    by (apply list_contains_false; vm_compute; reflexivity).
  split_and!; [done..|].
  exact (unregister_then_signup_moves_to_end activities "Chess Club"
           "michael@mergington.edu" (Some "mrodriguez") chess_club
           [] ["daniel@mergington.edu"] Hcu Hreg eq_refl Hl1 Hl2).
Defined.

(** ** Requests served in sequence *)

Section ServeFacts.

Variable users : Users.
Variable check_password_hash : string → string → bool.

Lemma serve_cons request rest (reg : Registry) :
  serve users check_password_hash (request :: rest) reg =
    (fst (dispatch users check_password_hash request reg)
       :: fst (serve users check_password_hash rest
                 (snd (dispatch users check_password_hash request reg))),
     snd (serve users check_password_hash rest
            (snd (dispatch users check_password_hash request reg)))).
Proof.
  simpl. destruct (dispatch _ _ request reg) as [reply reg1]. simpl.
  by destruct (serve _ _ rest reg1).
Qed.

Lemma login_keeps_registry form_data (reg : Registry) :
  snd (login users check_password_hash form_data reg) = reg.
Proof.
  unfold login, response_set_cookie, mbind, M_bind, bind.
  destruct (verify_teacher _ _ _ _); [|done].
  by destruct (latin1_encodable _).
Qed.

Lemma dispatch_login_keeps_registry form_data (reg : Registry) :
  snd (dispatch users check_password_hash (POST_login form_data) reg) = reg.
Proof.
  unfold dispatch, mbind, M_bind, bind.
  pose proof (login_keeps_registry form_data reg) as Hreg.
  by destruct (login _ _ form_data reg) as [[resp|e] reg1].
Qed.

(** Whatever the request, the handler leaves the registry alone, appends
    one fresh email to one activity, or removes one email from one. *)
Lemma dispatch_step request (reg : Registry) :
  registry_step reg (snd (dispatch users check_password_hash request reg)).
Proof.
  destruct request as [| | form_data | | session name email | session name email].
  - apply step_same.
  - apply step_same.
  - rewrite dispatch_login_keeps_registry. apply step_same.
  - apply step_same.
  - unfold dispatch, post_signup, mbind, M_bind, bind.
    destruct (signup_cases name email (get_current_user users session) reg)
      as [-> | [-> | [-> | (a & Hreg & Hfresh & ->)]]]; simpl;
      first [apply step_same | by eapply step_append].
  - unfold dispatch, delete_unregister, mbind, M_bind, bind.
    destruct (unregister_cases name email reg)
      as [-> | [-> | (a & l1 & l2 & Hreg & Hsplit & Hl1 & ->)]]; simpl;
      first [apply step_same | by eapply step_remove].
Qed.

Lemma registry_step_catalogue (reg reg' : Registry) :
  registry_step reg reg' → same_catalogue reg reg'.
Proof.
  intros Hstep name'. destruct Hstep as [| name a email Hreg _ | name a email l1 l2 Hreg _ _];
    [done | |];
    (destruct (decide (name = name')) as [<-|Hne];
     [by rewrite lookup_insert_eq, Hreg | by rewrite lookup_insert_ne]).
Qed.

Lemma registry_step_unique (reg reg' : Registry) :
  registry_step reg reg' → unique_participants reg → unique_participants reg'.
Proof.
  intros Hstep Hinv.
  destruct Hstep as [| name a email Hreg Hfresh | name a email l1 l2 Hreg Hsplit Hl1];
    [done | |]; apply map_Forall_insert_2; try done; simpl.
  - apply NoDup_app. split_and!.
    + by apply (Hinv name a).
    + by intros x Hx ->%list_elem_of_singleton.
    + apply NoDup_singleton.
  - pose proof (Hinv name a Hreg) as Hnd. simpl in Hnd. rewrite Hsplit in Hnd.
    apply NoDup_app in Hnd as (Hnd1 & Hdisj & [_ Hnd2]%NoDup_cons).
    apply NoDup_app. split_and!; [done | | done].
    intros x Hx1 Hx2. apply (Hdisj x Hx1). by right.
Qed.

Lemma same_catalogue_dom (reg reg' : Registry) :
  same_catalogue reg reg' → dom reg' = dom reg.
Proof.
  intros Hcat. apply set_eq. intros name. rewrite !elem_of_dom.
  specialize (Hcat name).
  destruct (reg' !! name), (reg !! name); simpl in Hcat; try discriminate;
    split; intros [? ?]; try discriminate; eauto.
Qed.

End ServeFacts.

(** X5: however many requests of whatever kind are served, the registry
    keeps the same activity names, and every activity keeps its
    description, schedule and [max_participants]: no route adds, deletes
    or renames an activity or edits its capacity. *)
Theorem serve_keeps_catalogue
    (users : Users) (check_password_hash : string → string → bool)
    (requests : list Request) (reg : Registry) :
  same_catalogue reg (snd (serve users check_password_hash requests reg)) ∧
  dom (snd (serve users check_password_hash requests reg)) = dom reg.
Proof.
  assert (same_catalogue reg (snd (serve users check_password_hash requests reg))) as Hcat.
  { revert reg. induction requests as [|request rest IH]; intros reg; [done|].
    rewrite serve_cons. simpl. intros name.
    rewrite (IH _ name).
    apply (registry_step_catalogue _ _ (dispatch_step users check_password_hash request reg)). }
  split; [done | by apply same_catalogue_dom].
Qed.

(** X6: served one after another, requests never introduce a duplicate
    email: a duplicate-free registry stays duplicate-free through any
    sequence of requests. *)
Theorem serve_keeps_participants_unique
    (users : Users) (check_password_hash : string → string → bool)
    (requests : list Request) (reg : Registry) :
  unique_participants reg →
  unique_participants (snd (serve users check_password_hash requests reg)).
Proof.
  revert reg. induction requests as [|request rest IH]; intros reg Hinv; [done|].
  rewrite serve_cons. simpl. apply IH.
  by eapply registry_step_unique; [apply dispatch_step|].
Qed.

Lemma serve_keeps_participants_unique_witness :
  unique_participants activities ∧
  unique_participants
    (snd (serve sample_teachers sample_check
            [POST_signup (Some "mchen") "Chess Club" "new@mergington.edu";
             POST_signup (Some "mchen") "Chess Club" "new@mergington.edu";
             DELETE_unregister None "Math Club" "james@mergington.edu";
             GET_activities]
            activities)).
Proof.
  assert (unique_participants activities) as Hinit.
  { unfold unique_participants. apply (bool_decide_unpack _). vm_compute. exact I. }
  split; [exact Hinit|].
  exact (serve_keeps_participants_unique sample_teachers sample_check _ activities Hinit).
Defined.

(** X7: requests that carry no resolvable teacher session can only shrink
    enrolment: after any sequence of them, each activity's participants
    are a sublist, in the same order, of what they were before. *)
Theorem anonymous_requests_only_remove
    (users : Users) (check_password_hash : string → string → bool)
    (requests : list Request) (reg : Registry) (activity_name : string)
    (activity' : Activity) :
  Forall (λ request, anonymous users request = true) requests →
  snd (serve users check_password_hash requests reg) !! activity_name = Some activity' →
  ∃ activity,
    reg !! activity_name = Some activity ∧
    participants activity' `sublist_of` participants activity.
Proof.
  revert reg. induction requests as [|request rest IH]; intros reg Hanon Hfinal.
  { simpl in Hfinal. by exists activity'. }
  apply Forall_cons in Hanon as [Hreq Hrest].
  rewrite serve_cons in Hfinal. simpl in Hfinal.
  destruct (IH _ Hrest Hfinal) as (a1 & Hreg1 & Hsub1). clear IH Hfinal.
  assert (∃ a, reg !! activity_name = Some a ∧
               participants a1 `sublist_of` participants a) as (a & Hreg & Hsub).
  { destruct request as [| | form_data | | session name email | session name email];
      try (by exists a1).
    - rewrite dispatch_login_keeps_registry in Hreg1. by exists a1.
    - simpl in Hreq.
      destruct (get_current_user users session) as [u|] eqn:Hcu; [discriminate|].
      unfold dispatch, post_signup, mbind, M_bind, bind in Hreg1.
      rewrite Hcu, (signup_falsy name email None reg eq_refl) in Hreg1.
      by exists a1.
    - unfold dispatch, delete_unregister, mbind, M_bind, bind in Hreg1.
      destruct (unregister_cases name email reg)
        as [H | [H | (a & l1 & l2 & Hreg & Hsplit & Hl1 & H)]];
        rewrite H in Hreg1; simpl in Hreg1; try (by exists a1).
      destruct (decide (name = activity_name)) as [->|Hne].
      + rewrite lookup_insert_eq in Hreg1. injection Hreg1 as <-.
        exists a. split; [done|]. simpl. rewrite Hsplit.
        apply sublist_app; [done|]. by apply sublist_cons.
      + rewrite lookup_insert_ne in Hreg1 by done. by exists a1. }
  exists a. split; [done|]. by etrans.
Qed.

Lemma anonymous_requests_only_remove_witness :
  Forall (λ request, anonymous sample_teachers request = true)
    [DELETE_unregister None "Chess Club" "michael@mergington.edu";
     POST_signup None "Chess Club" "x@mergington.edu";
     POST_signup (Some "intruder") "Chess Club" "y@mergington.edu"] ∧
  snd (serve sample_teachers sample_check
         [DELETE_unregister None "Chess Club" "michael@mergington.edu";
          POST_signup None "Chess Club" "x@mergington.edu";
          POST_signup (Some "intruder") "Chess Club" "y@mergington.edu"]
         activities) !! "Chess Club" =
    Some (set_participants ["daniel@mergington.edu"] chess_club) ∧
  ∃ activity,
    activities !! "Chess Club" = Some activity ∧
    participants (set_participants ["daniel@mergington.edu"] chess_club)
      `sublist_of` participants activity.
Proof.
  assert (Forall (λ request, anonymous sample_teachers request = true)
            [DELETE_unregister None "Chess Club" "michael@mergington.edu";
             POST_signup None "Chess Club" "x@mergington.edu";
             POST_signup (Some "intruder") "Chess Club" "y@mergington.edu"]) as Hanon.
  { repeat constructor; vm_compute; reflexivity. }
  assert (snd (serve sample_teachers sample_check
                 [DELETE_unregister None "Chess Club" "michael@mergington.edu";
                  POST_signup None "Chess Club" "x@mergington.edu";
                  POST_signup (Some "intruder") "Chess Club" "y@mergington.edu"]
                 activities) !! "Chess Club" =
          Some (set_participants ["daniel@mergington.edu"] chess_club)) as Hfinal.
  { vm_compute; reflexivity. }
  split_and!; [done..|].
  exact (anonymous_requests_only_remove sample_teachers sample_check _ activities
           "Chess Club" _ Hanon Hfinal).
Defined.

(** X8: a logged-in teacher signing up a list of distinct fresh emails, one
    request after the other, is confirmed every time, and the activity
    then stores its old participants followed by the emails in request
    order, however long the list is and whatever [max_participants] is;
    nothing else in the registry changes. *)
Theorem serve_signups_in_arrival_order
    (users : Users) (check_password_hash : string → string → bool)
    (session : option string) (user : string)
    (reg : Registry) (activity_name : string) (activity : Activity)
    (emails : list string) :
  get_current_user users session = Some user →
  reg !! activity_name = Some activity →
  NoDup emails →
  (∀ email, email ∈ emails → email ∉ participants activity) →
  ∃ reg1 activity1,
    serve users check_password_hash
      (map (λ email, POST_signup session activity_name email) emails) reg =
    (map (λ email,
            Returned (MessageReply
              (mkResponse ("Signed up " +:+ email +:+ " for " +:+ activity_name))))
         emails,
     reg1) ∧
    reg1 !! activity_name = Some activity1 ∧
    participants activity1 = participants activity ++ emails ∧
    participants <$> reg1 !! activity_name = Some (participants activity ++ emails) ∧
    description activity1 = description activity ∧
    schedule activity1 = schedule activity ∧
    max_participants activity1 = max_participants activity ∧
    (∀ other, other ≠ activity_name → reg1 !! other = reg !! other).
Proof.
  intros Hres. pose proof Hres as (-> & Hcu & _)%get_current_user_Some.
  revert reg activity.
  induction emails as [|email emails IH]; intros reg activity Hreg Hnd Hfresh.
  { exists reg, activity. simpl. rewrite app_nil_r, Hreg. by split_and!. }
  apply NoDup_cons in Hnd as [Hemail Hnd].
  assert (email ∉ participants activity) as Hnew by (apply Hfresh; by left).
  set (activity0 := set_participants (participants activity ++ [email]) activity).
  assert (dispatch users check_password_hash
            (POST_signup (Some user) activity_name email) reg =
          (Returned (MessageReply
             (mkResponse ("Signed up " +:+ email +:+ " for " +:+ activity_name))),
           <[activity_name := activity0]> reg)) as Hstep.
  { unfold dispatch, post_signup, mbind, M_bind, bind.
    by rewrite Hres, (signup_fresh _ _ _ _ _ Hcu Hreg Hnew). }
  destruct (IH (<[activity_name := activity0]> reg) activity0)
    as (reg1 & activity1 & Hrun & Hlook & Hpart & Hproj & Hd & Hs & Hm & Hother).
  - apply lookup_insert_eq.
  - done.
  - intros e He. simpl. rewrite elem_of_app, list_elem_of_singleton.
    intros [Hold | ->]; [|done]. apply (Hfresh e); [by right | done].
  - exists reg1, activity1.
    rewrite map_cons, serve_cons, Hstep. simpl. rewrite Hrun. simpl.
    simpl in Hpart, Hproj. rewrite <- app_assoc in Hpart, Hproj.
    split_and!; try done.
    intros other Hne. rewrite (Hother other Hne). by apply lookup_insert_ne.
Qed.

Lemma serve_signups_in_arrival_order_witness :
  get_current_user sample_teachers (Some "mchen") = Some "mchen" ∧
  crowded !! "Tiny Club" = Some tiny_club ∧
  NoDup ["c@mergington.edu"; "d@mergington.edu"; "e@mergington.edu"] ∧
  ∃ reg1 activity1,
    serve sample_teachers sample_check
      (map (λ email, POST_signup (Some "mchen") "Tiny Club" email)
         ["c@mergington.edu"; "d@mergington.edu"; "e@mergington.edu"]) crowded =
    (map (λ email,
            Returned (MessageReply
              (mkResponse ("Signed up " +:+ email +:+ " for " +:+ "Tiny Club"))))
         ["c@mergington.edu"; "d@mergington.edu"; "e@mergington.edu"],
     reg1) ∧
    reg1 !! "Tiny Club" = Some activity1 ∧
    participants activity1 =
      participants tiny_club ++
        ["c@mergington.edu"; "d@mergington.edu"; "e@mergington.edu"] ∧
    participants <$> reg1 !! "Tiny Club" =
      Some (participants tiny_club ++
              ["c@mergington.edu"; "d@mergington.edu"; "e@mergington.edu"]) ∧
    description activity1 = description tiny_club ∧
    schedule activity1 = schedule tiny_club ∧
    max_participants activity1 = max_participants tiny_club ∧
    (∀ other, other ≠ "Tiny Club" → reg1 !! other = crowded !! other).
Proof.
  assert (get_current_user sample_teachers (Some "mchen") = Some "mchen") as Hcu
    by (vm_compute; reflexivity).
  assert (crowded !! "Tiny Club" = Some tiny_club) as Hreg
    by (vm_compute; reflexivity).
  assert (NoDup ["c@mergington.edu"; "d@mergington.edu"; "e@mergington.edu"]) as Hnd
    by (apply (bool_decide_unpack _); vm_compute; exact I).
  assert (∀ email,
            email ∈ ["c@mergington.edu"; "d@mergington.edu"; "e@mergington.edu"] →
            email ∉ participants tiny_club) as Hfresh.
  { intros email Hin Hold. apply list_contains_elem_of in Hold.
    repeat (apply elem_of_cons in Hin as [-> | Hin];
            [vm_compute in Hold; discriminate|]).
    by apply elem_of_nil in Hin. }
  split_and!; [done..|].
  exact (serve_signups_in_arrival_order sample_teachers sample_check (Some "mchen")
           "mchen" crowded "Tiny Club" tiny_club _ Hcu Hreg Hnd Hfresh).
Defined.

(** ** Login *)



(** X10: after a successful login with a non-empty username, a signup request
    that sends back the cookie the login response set is accepted: for an
    existing activity and a fresh email it returns the confirmation, and
    the activity then stores its old participants followed by the email;
    nothing else in the registry changes. *)
Theorem login_then_signup
    (users : Users) (check_password_hash : string → string → bool)
    (form_data : OAuth2PasswordRequestForm.t) (resp : JSONResponse)
    (reg reg1 : Registry) (activity_name email : string) (activity : Activity) :
  login users check_password_hash form_data reg = (Returned resp, reg1) →
  OAuth2PasswordRequestForm.username form_data ≠ "" →
  reg !! activity_name = Some activity →
  email ∉ participants activity →
  ∃ value reg2 activity2,
    cookies resp = [set_cookie "session" value] ∧
    post_signup users (Some value) activity_name email reg1 =
      (Returned (mkResponse ("Signed up " +:+ email +:+ " for " +:+ activity_name)),
       reg2) ∧
    reg2 !! activity_name = Some activity2 ∧
    participants activity2 = participants activity ++ [email] ∧
    participants <$> reg2 !! activity_name = Some (participants activity ++ [email]) ∧
    description activity2 = description activity ∧
    schedule activity2 = schedule activity ∧
    max_participants activity2 = max_participants activity ∧
    (∀ other, other ≠ activity_name → reg2 !! other = reg !! other).
Proof.
  intros Hlogin Hname Hreg Hfresh.
  exists (OAuth2PasswordRequestForm.username form_data).
  revert Hlogin.
  unfold login, verify_teacher, load_users, response_set_cookie, mbind, M_bind, bind.
  destruct (teachers users !! OAuth2PasswordRequestForm.username form_data)
    as [teacher|] eqn:Hlookup; [|discriminate].
  destruct (check_password_hash (password teacher) _); [|discriminate].
  destruct (latin1_encodable _); [|discriminate].
  intros [= <- <-].
  assert (truthy (Some (OAuth2PasswordRequestForm.username form_data)) = true) as Hcu.
  { simpl. by apply negb_true_iff, String.eqb_neq. }
  assert (get_current_user users (Some (OAuth2PasswordRequestForm.username form_data)) =
          Some (OAuth2PasswordRequestForm.username form_data)) as Hres.
  { unfold get_current_user, load_users. rewrite Hcu. simpl.
    rewrite bool_decide_eq_true_2; [done|]. apply elem_of_dom. eauto. }
  eexists _, _. split; [done|].
  split. { unfold post_signup. rewrite Hres. by apply signup_fresh. }
  split; [apply lookup_insert_eq|].
  split; [done|].
  split; [by rewrite lookup_insert_eq|].
  split_and!; try done.
  intros other Hother. by apply lookup_insert_ne.
Qed.

Lemma login_then_signup_witness :
  login sample_teachers sample_check
    (OAuth2PasswordRequestForm.mk "mchen" "chess456") activities =
    (Returned (mkJSONResponse [("status", "success")] [set_cookie "session" "mchen"]),
     activities) ∧
  activities !! "Chess Club" = Some chess_club ∧
  ∃ value reg2 activity2,
    [set_cookie "session" "mchen"] = [set_cookie "session" value] ∧
    post_signup sample_teachers (Some value) "Chess Club" "new@mergington.edu" activities =
      (Returned (mkResponse ("Signed up " +:+ "new@mergington.edu" +:+ " for " +:+ "Chess Club")),
       reg2) ∧
    reg2 !! "Chess Club" = Some activity2 ∧
    participants activity2 = participants chess_club ++ ["new@mergington.edu"] ∧
    participants <$> reg2 !! "Chess Club" =
      Some (participants chess_club ++ ["new@mergington.edu"]) ∧
    description activity2 = description chess_club ∧
    schedule activity2 = schedule chess_club ∧
    max_participants activity2 = max_participants chess_club ∧
    (∀ other, other ≠ "Chess Club" → reg2 !! other = activities !! other).
Proof.
  assert (login sample_teachers sample_check
            (OAuth2PasswordRequestForm.mk "mchen" "chess456") activities =
          (Returned (mkJSONResponse [("status", "success")] [set_cookie "session" "mchen"]),
           activities)) as Hgood
    by (vm_compute; reflexivity).
  assert (activities !! "Chess Club" = Some chess_club) as Hreg
    by (vm_compute; reflexivity).
  assert ("new@mergington.edu" ∉ participants chess_club) as Hfresh
    by (apply list_contains_false; vm_compute; reflexivity).
  assert (OAuth2PasswordRequestForm.username
            (OAuth2PasswordRequestForm.mk "mchen" "chess456") ≠ "") as Hname
    by discriminate.
  split_and!; [done..|].
  exact (login_then_signup sample_teachers sample_check
           (OAuth2PasswordRequestForm.mk "mchen" "chess456") _ activities activities
           "Chess Club" "new@mergington.edu" chess_club Hgood Hname Hreg Hfresh).
Defined.

(** ** Sessions and passwords *)

(** X11: resolving a session looks at usernames only: two credential tables
    with the same usernames resolve every cookie alike and answer every
    signup request alike, whatever password hashes they store. *)
Theorem session_ignores_passwords
    (users users' : Users) (session : option string)
    (activity_name email : string) (reg : Registry) :
  dom (teachers users) = dom (teachers users') →
  get_current_user users session = get_current_user users' session ∧
  post_signup users session activity_name email reg =
    post_signup users' session activity_name email reg.
Proof.
  intros Hdom.
  assert (get_current_user users session = get_current_user users' session) as Hsame.
  { unfold get_current_user, load_users. by rewrite Hdom. }
  split; [done|]. unfold post_signup. by rewrite Hsame.
Qed.

Lemma session_ignores_passwords_witness :
  dom (teachers sample_teachers) = dom (teachers rehashed_teachers) ∧
  get_current_user sample_teachers (Some "mchen") =
    get_current_user rehashed_teachers (Some "mchen") ∧
  post_signup sample_teachers (Some "mchen") "Chess Club" "new@mergington.edu" activities =
    post_signup rehashed_teachers (Some "mchen") "Chess Club" "new@mergington.edu" activities.
Proof.
  assert (dom (teachers sample_teachers) = dom (teachers rehashed_teachers)) as Hdom.
  { apply set_eq. intros name. rewrite !elem_of_dom.
    unfold sample_teachers, rehashed_teachers. simpl.
    destruct (decide (name = "mrodriguez")) as [->|Hne1].
    { split; intros _; eexists; vm_compute; reflexivity. }
    destruct (decide (name = "mchen")) as [->|Hne2].
    { split; intros _; eexists; vm_compute; reflexivity. }
    rewrite !lookup_insert_ne by done.
    rewrite !lookup_singleton_ne by done. done. }
  split; [exact Hdom|].
  exact (session_ignores_passwords sample_teachers rehashed_teachers (Some "mchen")
           "Chess Club" "new@mergington.edu" activities Hdom).
Defined.
